(** * examples/create_test_pair.py: the fixture generator of pptx-review

    The script builds two presentations with the python-pptx library
    ([create_old], [create_new]), saves each one to a fixed path and
    prints a report.  The library objects are mutable and reached through
    references ([prs], [slide], [tf], [p], ...), so the embedding is a
    state-and-exception monad over a process state that holds the
    presentation objects, the file system, the clock and the trace of
    observable events.  A save can fail: at opening the file, on a time
    stamp the archive format cannot hold, or on the device. *)

From Stdlib Require Import Ascii String.
From stdpp Require Import gmap strings list.

Open Scope string_scope.

(** ** The presentation objects of the authoring library *)

Module Pptx.

(** [prs.core_properties]: the two metadata fields the script assigns. *)
Record CoreProperties := {
  title : string;
  author : string
}.

(** A slide layout of the template, with the [idx] values of the
    placeholders a new slide inherits from it. *)
Record SlideLayout := {
  layout_name : string;
  layout_placeholders : list nat
}.

(** A text frame is its ordered sequence of paragraphs. *)
Definition TextFrame := list string.

(** A slide: the layout it was made from, its placeholders by [idx], and
    its notes slide, which exists only once [slide.notes_slide] has been
    read. *)
Record Slide := {
  layout : SlideLayout;
  placeholders : gmap nat TextFrame;
  notes : option TextFrame
}.

Record Presentation := {
  core_properties : CoreProperties;
  slide_layouts : list SlideLayout;
  slides : list Slide
}.

(** The layouts of the library's default template.  The script uses the
    first two: "Title Slide" (title, subtitle) and "Title and Content"
    (title, body). *)
Definition default_layouts : list SlideLayout :=
  [ {| layout_name := "Title Slide"; layout_placeholders := [0; 1] |};
    {| layout_name := "Title and Content"; layout_placeholders := [0; 1] |};
    {| layout_name := "Section Header"; layout_placeholders := [0; 1] |};
    {| layout_name := "Two Content"; layout_placeholders := [0; 1; 2] |};
    {| layout_name := "Comparison"; layout_placeholders := [0; 1; 2; 3; 4] |};
    {| layout_name := "Title Only"; layout_placeholders := [0] |};
    {| layout_name := "Blank"; layout_placeholders := [] |};
    {| layout_name := "Content with Caption"; layout_placeholders := [0; 1; 2] |};
    {| layout_name := "Picture with Caption"; layout_placeholders := [0; 1; 2] |};
    {| layout_name := "Title and Vertical Text"; layout_placeholders := [0; 1] |};
    {| layout_name := "Vertical Title and Text"; layout_placeholders := [0; 1] |} ]%nat.

(** [time.localtime(time.time())[:6]], the time stamp the archive writer
    gives to what it writes. *)
Record DateTime := {
  year : nat;
  month : nat;
  day : nat;
  hour : nat;
  minute : nat;
  second : nat
}.

(** What a [prs.save] that returns leaves on disk: the presentation, and
    the time stamp taken from the clock. *)
Record Package := {
  stamp : DateTime;
  document : Presentation
}.

(** A file at an output path: a whole package, or the archive without
    members that a save leaves behind when it fails after opening the
    file. *)
Inductive File :=
  | PackageFile (pkg : Package)
  | TruncatedFile.

(** *** Text of a frame *)

Definition LF : ascii := ascii_of_nat 10.

(** [text.split("\n")], as a pair (current line, later lines). *)
Fixpoint split_lines_aux (s : string) : string * list string :=
  match s with
  | EmptyString => (EmptyString, [])
  | String c rest =>
      let '(line, more) := split_lines_aux rest in
      if Ascii.eqb c LF then (EmptyString, line :: more)
      else (String c line, more)
  end.

Definition split_lines (s : string) : list string :=
  let '(line, more) := split_lines_aux s in line :: more.

(** ["\n".join(paragraphs)] *)
Fixpoint join_lines (ps : list string) : string :=
  match ps with
  | [] => EmptyString
  | [p] => p
  | p :: rest => p ++ String LF (join_lines rest)
  end.

(** A slide made from a layout: one empty paragraph in each placeholder,
    no notes slide yet. *)
Definition new_slide (l : SlideLayout) : Slide :=
  {| layout := l;
     placeholders :=
       list_to_map ((λ idx, (idx, [EmptyString])) <$> layout_placeholders l);
     notes := None |}.

End Pptx.

Import Pptx.

(** ** Process state and the monad of statements *)

(** What a run does that can be seen from outside: [Wrote path], a
    package written in full; [LeftTruncated path], the file of a save
    that failed after opening it; [Printed line]. *)
Inductive Event :=
  | Wrote (path : string)
  | LeftTruncated (path : string)
  | Printed (line : string).

(** The state of a run.  [heap] holds the presentation objects made by
    [Presentation()].  [files] is the file system.  [clock] gives the
    successive readings of the system clock and [ticks] counts the
    readings taken so far.  [writable] tells which paths can be opened for
    writing, [io_fault] at which paths writing is cut short by the device
    (no space left, say), and [template] is the metadata of the library's
    default template.  [events] records, in order, what the run did. *)
Record Process := {
  heap : list Presentation;
  files : gmap string File;
  clock : nat → DateTime;
  ticks : nat;
  writable : string → bool;
  io_fault : string → bool;
  template : CoreProperties;
  events : list Event
}.

(** [StructError] is [struct.error]. *)
Inductive Exception :=
  | IndexError
  | KeyError
  | AttributeError
  | ReferenceError
  | OSError (path : string)
  | ValueError
  | StructError.

Inductive Outcome (A : Type) :=
  | Ret (a : A)
  | Raise (e : Exception).
Arguments Ret {A} a.
Arguments Raise {A} e.

(** A statement runs on a process state; an exception keeps the state
    reached so far. *)
Definition M (A : Type) : Type := Process → Outcome A * Process.

#[global] Instance M_ret : MRet M := λ A a σ, (Ret a, σ).

#[global] Instance M_bind : MBind M := λ A B f m σ,
  match m σ with
  | (Ret a, σ') => f a σ'
  | (Raise e, σ') => (Raise e, σ')
  end.

Definition raise {A} (e : Exception) : M A := λ σ, (Raise e, σ).

Definition get_heap : M (list Presentation) := λ σ, (Ret (heap σ), σ).

Definition put_heap (h : list Presentation) : M unit := λ σ,
  (Ret tt,
   {| heap := h; files := files σ; clock := clock σ; ticks := ticks σ;
      writable := writable σ; io_fault := io_fault σ;
      template := template σ; events := events σ |}).

Definition emit (ev : Event) : M unit := λ σ,
  (Ret tt,
   {| heap := heap σ; files := files σ; clock := clock σ; ticks := ticks σ;
      writable := writable σ; io_fault := io_fault σ;
      template := template σ; events := (events σ ++ [ev])%list |}).

Definition lift_option {A} (e : Exception) (o : option A) : M A :=
  match o with
  | Some a => mret a
  | None => raise e
  end.

(** ** The library calls the script makes

    References: a presentation is its index in [heap]; a slide is a
    presentation and a position; a shape (and its text frame) is a slide
    and a placeholder [idx]; a paragraph is a text frame and a position. *)

Definition PrsRef := nat.
Definition SlideRef := (PrsRef * nat)%type.
Definition ShapeRef := (SlideRef * nat)%type.
Definition ParagraphRef := (ShapeRef * nat)%type.

Definition read_prs (prs : PrsRef) : M Presentation :=
  h ← get_heap; lift_option ReferenceError (h !! prs).

Definition write_prs (prs : PrsRef) (p : Presentation) : M unit :=
  h ← get_heap; put_heap (<[prs := p]> h).

Definition read_slide (slide : SlideRef) : M Slide :=
  p ← read_prs slide.1; lift_option ReferenceError (slides p !! slide.2).

Definition write_slide (slide : SlideRef) (s : Slide) : M unit :=
  p ← read_prs slide.1;
  write_prs slide.1
    {| core_properties := core_properties p;
       slide_layouts := slide_layouts p;
       slides := <[slide.2 := s]> (slides p) |}.

(** [Presentation()]: a new object from the default template, no slides. *)
Definition Presentation_new : M PrsRef := λ σ,
  (Ret (length (heap σ)),
   {| heap := (heap σ ++ [ {| core_properties := template σ;
                              slide_layouts := default_layouts;
                              slides := [] |} ])%list;
      files := files σ; clock := clock σ; ticks := ticks σ;
      writable := writable σ; io_fault := io_fault σ;
      template := template σ; events := events σ |}).

(** [prs.core_properties.title = s] *)
Definition set_title (prs : PrsRef) (s : string) : M unit :=
  p ← read_prs prs;
  write_prs prs
    {| core_properties :=
         {| title := s; author := author (core_properties p) |};
       slide_layouts := slide_layouts p;
       slides := slides p |}.

(** [prs.core_properties.author = s] *)
Definition set_author (prs : PrsRef) (s : string) : M unit :=
  p ← read_prs prs;
  write_prs prs
    {| core_properties :=
         {| title := title (core_properties p); author := s |};
       slide_layouts := slide_layouts p;
       slides := slides p |}.

(** [prs.slide_layouts[i]] *)
Definition get_layout (prs : PrsRef) (i : nat) : M SlideLayout :=
  p ← read_prs prs; lift_option IndexError (slide_layouts p !! i).

(** [prs.slides.add_slide(slide_layout)]: appended at the end. *)
Definition add_slide (prs : PrsRef) (slide_layout : SlideLayout) : M SlideRef :=
  p ← read_prs prs;
  write_prs prs
    {| core_properties := core_properties p;
       slide_layouts := slide_layouts p;
       slides := (slides p ++ [new_slide slide_layout])%list |};;
  mret (prs, length (slides p)).

(** [slide.shapes.title]: the placeholder with [idx] 0; Python has [None]
    when there is none, and assigning its [text] then raises. *)
Definition shapes_title (slide : SlideRef) : M ShapeRef :=
  s ← read_slide slide;
  match placeholders s !! 0%nat with
  | Some _ => mret (slide, 0%nat)
  | None => raise AttributeError
  end.

(** [slide.placeholders[idx]] *)
Definition get_placeholder (slide : SlideRef) (idx : nat) : M ShapeRef :=
  s ← read_slide slide;
  match placeholders s !! idx with
  | Some _ => mret (slide, idx)
  | None => raise KeyError
  end.

(** [body.text_frame] *)
Definition text_frame (body : ShapeRef) : M ShapeRef := mret body.

(** [shape.text = s] and [tf.text = s]: the frame's paragraphs are
    replaced by the lines of [s]. *)
Definition set_text (tf : ShapeRef) (s : string) : M unit :=
  sl ← read_slide tf.1;
  match placeholders sl !! tf.2 with
  | Some _ =>
      write_slide tf.1
        {| layout := layout sl;
           placeholders := <[tf.2 := split_lines s]> (placeholders sl);
           notes := notes sl |}
  | None => raise ReferenceError
  end.

(** [tf.add_paragraph()]: a new empty paragraph at the end. *)
Definition add_paragraph (tf : ShapeRef) : M ParagraphRef :=
  sl ← read_slide tf.1;
  match placeholders sl !! tf.2 with
  | Some ps =>
      write_slide tf.1
        {| layout := layout sl;
           placeholders := <[tf.2 := (ps ++ [EmptyString])%list]> (placeholders sl);
           notes := notes sl |};;
      mret (tf, length ps)
  | None => raise ReferenceError
  end.

(** [p.text = s] *)
Definition set_paragraph_text (p : ParagraphRef) (s : string) : M unit :=
  sl ← read_slide p.1.1;
  match placeholders sl !! p.1.2 with
  | Some ps =>
      if decide (p.2 < length ps)%nat then
        write_slide p.1.1
          {| layout := layout sl;
             placeholders := <[p.1.2 := <[p.2 := s]> ps]> (placeholders sl);
             notes := notes sl |}
      else raise ReferenceError
  | None => raise ReferenceError
  end.

(** [slide.notes_slide]: made on first access, with an empty text frame. *)
Definition get_notes_slide (slide : SlideRef) : M SlideRef :=
  sl ← read_slide slide;
  match notes sl with
  | Some _ => mret slide
  | None =>
      write_slide slide
        {| layout := layout sl; placeholders := placeholders sl;
           notes := Some [EmptyString] |};;
      mret slide
  end.

(** [notes_slide.notes_text_frame.text = s] *)
Definition set_notes_text (notes_slide : SlideRef) (s : string) : M unit :=
  sl ← read_slide notes_slide;
  match notes sl with
  | Some _ =>
      write_slide notes_slide
        {| layout := layout sl; placeholders := placeholders sl;
           notes := Some (split_lines s) |}
  | None => raise ReferenceError
  end.

(** *** Saving

    [prs.save(path)] opens a zip archive at [path] for writing and writes
    the parts of the package into it, each under the time the clock then
    shows; the model keeps one reading per save. *)

Definition replace_file (path : string) (f : File)
    (fs : gmap string File) : gmap string File :=
  <[path := f]> fs.

(** [ZipFile(path, "w")]: a path that cannot be opened for writing raises
    and the file system stays as it was. *)
Definition open_archive (path : string) : M unit := λ σ,
  if writable σ path then (Ret tt, σ) else (Raise (OSError path), σ).

(** [time.localtime(time.time())[:6]]: the next reading of the clock. *)
Definition read_clock : M DateTime := λ σ,
  (Ret (clock σ (ticks σ)),
   {| heap := heap σ; files := files σ; clock := clock σ;
      ticks := S (ticks σ);
      writable := writable σ; io_fault := io_fault σ;
      template := template σ; events := events σ |}).

Definition get_io_fault (path : string) : M bool := λ σ,
  (Ret (io_fault σ path), σ).

(** The file at [path] becomes [f], whatever was there; [ev] records it. *)
Definition store (path : string) (f : File) (ev : Event) : M unit := λ σ,
  (Ret tt,
   {| heap := heap σ; files := replace_file path f (files σ);
      clock := clock σ; ticks := ticks σ;
      writable := writable σ; io_fault := io_fault σ;
      template := template σ; events := (events σ ++ [ev])%list |}).

(** A write that fails once the archive is open: the archive is closed
    without a complete set of members and the exception goes on. *)
Definition abandon (path : string) (e : Exception) : M unit :=
  store path TruncatedFile (LeftTruncated path);;
  raise e.

(** Writing the package [p] to [path].  [ZipInfo] refuses a year before
    1980 with a [ValueError], and packing the header of a member fails
    with [struct.error] for a year after 2107, whose DOS date does not fit
    16 bits. *)
Definition write_package (path : string) (p : Presentation) : M unit :=
  open_archive path;;
  now ← read_clock;
  if (year now <? 1980)%nat then abandon path ValueError
  else if (2107 <? year now)%nat then abandon path StructError
  else
    fault ← get_io_fault path;
    if (fault : bool) then abandon path (OSError path)
    else store path (PackageFile {| stamp := now; document := p |})
           (Wrote path).

(** [prs.save(path)] *)
Definition save (prs : PrsRef) (path : string) : M unit :=
  p ← read_prs prs;
  write_package path p.

(** [print(line)] *)
Definition print (line : string) : M unit := emit (Printed line).

(** ** The script *)

Definition create_old : M unit :=
  prs ← Presentation_new;
  set_title prs "Research Study";;
  set_author prs "Dr. Smith";;

  (* Slide 1: Title Slide *)
  slide_layout ← get_layout prs 0;
  slide ← add_slide prs slide_layout;
  shape ← shapes_title slide;
  set_text shape "Neuroimaging Study of Brain Connectivity";;
  shape ← get_placeholder slide 1;
  set_text shape "Dr. Smith, Department of Neuroscience";;

  notes_slide ← get_notes_slide slide;
  set_notes_text notes_slide
    "Welcome everyone. Today I'll present our findings on brain connectivity.";;

  (* Slide 2: Methods *)
  slide_layout ← get_layout prs 1;
  slide ← add_slide prs slide_layout;
  shape ← shapes_title slide;
  set_text shape "Methods";;
  body ← get_placeholder slide 1;
  tf ← text_frame body;
  set_text tf "Participants: 50 healthy adults (25M/25F)";;
  p ← add_paragraph tf;
  set_paragraph_text p "MRI Protocol: 3T Siemens scanner";;
  p ← add_paragraph tf;
  set_paragraph_text p "Analysis: FSL and FreeSurfer pipelines";;

  notes_slide ← get_notes_slide slide;
  set_notes_text notes_slide "Methods slide - explain recruitment criteria";;

  (* Slide 3: Results *)
  slide_layout ← get_layout prs 1;
  slide ← add_slide prs slide_layout;
  shape ← shapes_title slide;
  set_text shape "Results";;
  body ← get_placeholder slide 1;
  tf ← text_frame body;
  set_text tf "Significant connectivity differences in DMN (p<0.01)";;
  p ← add_paragraph tf;
  set_paragraph_text p "Correlation with cognitive scores: r=0.45";;
  p ← add_paragraph tf;
  set_paragraph_text p "No significant age effects observed";;

  notes_slide ← get_notes_slide slide;
  set_notes_text notes_slide "Key finding: DMN connectivity is altered";;

  (* Slide 4: Discussion *)
  slide_layout ← get_layout prs 1;
  slide ← add_slide prs slide_layout;
  shape ← shapes_title slide;
  set_text shape "Discussion";;
  body ← get_placeholder slide 1;
  tf ← text_frame body;
  set_text tf "Findings consistent with prior literature";;
  p ← add_paragraph tf;
  set_paragraph_text p "Novel contribution: whole-brain analysis approach";;
  p ← add_paragraph tf;
  set_paragraph_text p "Clinical implications for early diagnosis";;

  notes_slide ← get_notes_slide slide;
  set_notes_text notes_slide "Discuss limitations and future directions";;

  save prs "test_old.pptx";;
  print "Created test_old.pptx (4 slides)".

Definition create_new : M unit :=
  prs ← Presentation_new;
  set_title prs "Research Study - Revised";;
  set_author prs "Dr. Smith";;

  (* Slide 1: Title Slide (same structure, different notes) *)
  slide_layout ← get_layout prs 0;
  slide ← add_slide prs slide_layout;
  shape ← shapes_title slide;
  set_text shape "Neuroimaging Study of Brain Connectivity";;
  shape ← get_placeholder slide 1;
  set_text shape "Dr. Smith, Department of Neuroscience";;

  (* Changed notes *)
  notes_slide ← get_notes_slide slide;
  set_notes_text notes_slide
    "Welcome. Today I'll present our UPDATED findings on brain connectivity patterns.";;

  (* Slide 2: Methods (modified text) *)
  slide_layout ← get_layout prs 1;
  slide ← add_slide prs slide_layout;
  shape ← shapes_title slide;
  set_text shape "Methods";;
  body ← get_placeholder slide 1;
  tf ← text_frame body;
  set_text tf "Participants: 75 healthy adults (38M/37F)";;
  p ← add_paragraph tf;
  set_paragraph_text p "MRI Protocol: 3T Siemens Prisma scanner";;
  p ← add_paragraph tf;
  set_paragraph_text p "Analysis: FSL, FreeSurfer, and CONN toolbox";;

  notes_slide ← get_notes_slide slide;
  set_notes_text notes_slide "Methods slide - explain recruitment criteria";;

  (* Slide 3: Results (same as before) *)
  slide_layout ← get_layout prs 1;
  slide ← add_slide prs slide_layout;
  shape ← shapes_title slide;
  set_text shape "Results";;
  body ← get_placeholder slide 1;
  tf ← text_frame body;
  set_text tf "Significant connectivity differences in DMN (p<0.01)";;
  p ← add_paragraph tf;
  set_paragraph_text p "Correlation with cognitive scores: r=0.45";;
  p ← add_paragraph tf;
  set_paragraph_text p "No significant age effects observed";;

  notes_slide ← get_notes_slide slide;
  set_notes_text notes_slide "Key finding: DMN connectivity is altered";;

  (* Slide 4 (Discussion) is DELETED from new version *)

  (* Slide 4 (was 5): Limitations - NEW slide *)
  slide_layout ← get_layout prs 1;
  slide ← add_slide prs slide_layout;
  shape ← shapes_title slide;
  set_text shape "Limitations";;
  body ← get_placeholder slide 1;
  tf ← text_frame body;
  set_text tf "Cross-sectional design limits causal inference";;
  p ← add_paragraph tf;
  set_paragraph_text p "Sample size may be insufficient for subgroup analyses";;
  p ← add_paragraph tf;
  set_paragraph_text p "Single-site study limits generalizability";;

  notes_slide ← get_notes_slide slide;
  set_notes_text notes_slide "Be honest about limitations - reviewers will ask";;

  save prs "test_new.pptx";;
  print "Created test_new.pptx (4 slides: modified slide 2, changed notes on slide 1, deleted Discussion, added Limitations)".

(** The [__main__] block. *)
Definition main : M unit :=
  create_old;;
  create_new;;
  print (String LF "Done! Now run:");;
  print "  dotnet run --project ../PptxReview.csproj -- --diff test_old.pptx test_new.pptx";;
  print "  dotnet run --project ../PptxReview.csproj -- --textconv test_new.pptx".

(** ** Runs and what they produce *)

(** What a run finds when it starts: the files already on disk, what the
    clock will show each time it is read, which paths can be opened for
    writing, at which paths writing is cut short, and the metadata of the
    library's default template. *)
Record Env := {
  env_files : gmap string File;
  env_clock : nat → DateTime;
  env_writable : string → bool;
  env_io_fault : string → bool;
  env_template : CoreProperties
}.

(** A new process: no objects yet, the clock not read yet, nothing
    written or printed. *)
Definition start (e : Env) : Process :=
  {| heap := []; files := env_files e; clock := env_clock e; ticks := 0;
     writable := env_writable e; io_fault := env_io_fault e;
     template := env_template e; events := [] |}.

(** The presentation object a constructor has built when it ends,
    whether or not the object could be saved. *)
Definition built (m : M unit) (e : Env) : option Presentation :=
  last (heap (m (start e)).2).

Definition old_deck : Env → option Presentation := built create_old.
Definition new_deck : Env → option Presentation := built create_new.

(** The paths whose file a run has replaced, in order: by a whole package
    or by what a failed save left. *)
Definition writes (evs : list Event) : list string :=
  omap (λ ev, match ev with
              | Wrote path | LeftTruncated path => Some path
              | Printed _ => None
              end) evs.

(** How often a run has replaced the file at [path]. *)
Definition times_written (path : string) (evs : list Event) : nat :=
  length (filter (λ written, written = path) (writes evs)).

(** The package in a file, when the file is a whole package, and the
    presentation in it. *)
Definition file_package (f : File) : option Package :=
  match f with
  | PackageFile pkg => Some pkg
  | TruncatedFile => None
  end.

Definition file_document (f : File) : option Presentation :=
  document <$> file_package f.

(** *** The content of a deck, as a reader of the file sees it *)

(** [slide.shapes.title.text] *)
Definition slide_title (s : Slide) : option string :=
  join_lines <$> placeholders s !! 0%nat.

(** The paragraphs of [slide.placeholders[1]]: body or subtitle. *)
Definition slide_body (s : Slide) : list string :=
  default [] (placeholders s !! 1%nat).

(** [slide.notes_slide.notes_text_frame.text], when the slide has notes. *)
Definition slide_notes (s : Slide) : option string :=
  join_lines <$> notes s.

(** The slide at a position counted from 1, as the change table counts. *)
Definition slide_at (d : Presentation) (pos : nat) : option Slide :=
  match pos with
  | O => None
  | S i => slides d !! i
  end.

Record SlideContent := {
  content_title : option string;
  content_body : list string;
  content_notes : option string
}.

Record DeckContent := {
  meta_title : string;
  meta_author : string;
  content_slides : list SlideContent
}.

Definition slide_content (s : Slide) : SlideContent :=
  {| content_title := slide_title s;
     content_body := slide_body s;
     content_notes := slide_notes s |}.

(** Title, author, and the slides in order: no time stamp, no identifier. *)
Definition content (d : Presentation) : DeckContent :=
  {| meta_title := title (core_properties d);
     meta_author := author (core_properties d);
     content_slides := slide_content <$> slides d |}.

(** The lines printed during a run, in order. *)
Definition printed (evs : list Event) : list string :=
  omap (λ ev, match ev with Printed line => Some line | _ => None end) evs.

(** *** What a save comes to *)

Inductive SaveResult :=
  | Saved (now : DateTime)
  | OpenFailed
  | Failed (e : Exception).

(** The result of [write_package] at [path], from what it reads of the
    environment: whether the path can be opened, the clock, and whether
    the device cuts the write short. *)
Definition save_result (path : string) (can_open : bool) (now : DateTime)
    (fault : bool) : SaveResult :=
  if can_open then
    if (year now <? 1980)%nat then Failed ValueError
    else if (2107 <? year now)%nat then Failed StructError
    else if fault then Failed (OSError path)
    else Saved now
  else OpenFailed.

(** The save of [path] that takes the [k]-th reading of the clock, in a
    run started in [e]. *)
Definition save_in (e : Env) (k : nat) (path : string) : SaveResult :=
  save_result path (env_writable e path) (env_clock e k) (env_io_fault e path).

(** The state of a run started in [e] that has the objects [h], the files
    [fs], has read the clock [k] times and has the trace [evs]. *)
Definition ended (e : Env) (h : list Presentation) (fs : gmap string File)
    (k : nat) (evs : list Event) : Process :=
  {| heap := h; files := fs; clock := env_clock e; ticks := k;
     writable := env_writable e; io_fault := env_io_fault e;
     template := env_template e; events := evs |}.

(** *** Sample environments *)

(** A clock that shows the given year and second at its first reading
    and one second more at each later one. *)
Definition clock_from (y s : nat) : nat → DateTime := λ k,
  {| year := y; month := 11; day := 4; hour := 10; minute := 30;
     second := s + k |}.

(** An environment in which every save goes through. *)
Definition env0 : Env :=
  {| env_files := ∅; env_clock := clock_from 2026 0;
     env_writable := λ _, true; env_io_fault := λ _, false;
     env_template := {| title := EmptyString; author := EmptyString |} |}.

(** Two environments that differ in everything a run can observe, the
    second one being what the first run leaves behind, some time later. *)
Definition env_first : Env :=
  {| env_files := ∅; env_clock := clock_from 2026 5;
     env_writable := λ _, true; env_io_fault := λ _, false;
     env_template := {| title := "Template"; author := "Nobody" |} |}.

Definition env_second : Env :=
  {| env_files := files (main (start env_first)).2;
     env_clock := clock_from 2026 9;
     env_writable := λ _, true; env_io_fault := λ _, false;
     env_template := {| title := "Other template"; author := "Somebody" |} |}.

(** The environment the first run leaves behind, with one of the two
    output paths write-protected. *)
Definition env_old_locked : Env :=
  {| env_files := files (main (start env_first)).2;
     env_clock := clock_from 2026 9;
     env_writable := λ path, negb (String.eqb path "test_old.pptx");
     env_io_fault := λ _, false;
     env_template := {| title := "Template"; author := "Nobody" |} |}.

Definition env_new_locked : Env :=
  {| env_files := files (main (start env_first)).2;
     env_clock := clock_from 2026 9;
     env_writable := λ path, negb (String.eqb path "test_new.pptx");
     env_io_fault := λ _, false;
     env_template := {| title := "Template"; author := "Nobody" |} |}.

(** The environment the first run leaves behind, with both paths writable
    and a clock that shows 1970. *)
Definition env_early_clock : Env :=
  {| env_files := files (main (start env_first)).2;
     env_clock := clock_from 1970 0;
     env_writable := λ _, true; env_io_fault := λ _, false;
     env_template := {| title := "Template"; author := "Nobody" |} |}.

(** ** Symbolic runs *)

Lemma bind_run {A B} (m : M A) (f : A → M B) (σ : Process) :
  (m ≫= f) σ =
  match m σ with
  | (Ret a, σ') => f a σ'
  | (Raise e, σ') => (Raise e, σ')
  end.
Proof. reflexivity. Qed.

(** Runs a constructor up to its call of [write_package], which is kept
    folded so that the environment stays symbolic. *)
Ltac run_to_write_package :=
  unfold save;
  let wp := fresh "wp" in
  let Hwp := fresh "Hwp" in
  remember write_package as wp eqn:Hwp;
  vm_compute; subst wp.

(** Everything [create_old] does before it saves happens on the heap
    alone: it ends with one new object, the same in every environment,
    and hands it to [write_package]. *)
Lemma create_old_run :
  ∃ a, old_deck env0 = Some a ∧
    ∀ h fs c k w io tpl evs, (length h ≤ 1)%nat →
      create_old {| heap := h; files := fs; clock := c; ticks := k;
                    writable := w; io_fault := io; template := tpl;
                    events := evs |} =
      (write_package "test_old.pptx" a;;
       print "Created test_old.pptx (4 slides)")
        {| heap := (h ++ [a])%list; files := fs; clock := c; ticks := k;
           writable := w; io_fault := io; template := tpl; events := evs |}.
Proof.
  destruct (old_deck env0) as [a|] eqn:Ha;
    [|vm_compute in Ha; discriminate Ha].
  exists a. split; [reflexivity|]. vm_compute in Ha. injection Ha as <-.
  intros h fs c k w io tpl evs Hh.
  destruct h as [|x [|y h]]; simpl in Hh; [| |lia];
    unfold create_old; run_to_write_package; reflexivity.
Qed.

Lemma create_new_run :
  ∃ b, new_deck env0 = Some b ∧
    ∀ h fs c k w io tpl evs, (length h ≤ 1)%nat →
      create_new {| heap := h; files := fs; clock := c; ticks := k;
                    writable := w; io_fault := io; template := tpl;
                    events := evs |} =
      (write_package "test_new.pptx" b;;
       print "Created test_new.pptx (4 slides: modified slide 2, changed notes on slide 1, deleted Discussion, added Limitations)")
        {| heap := (h ++ [b])%list; files := fs; clock := c; ticks := k;
           writable := w; io_fault := io; template := tpl; events := evs |}.
Proof.
  destruct (new_deck env0) as [b|] eqn:Hb;
    [|vm_compute in Hb; discriminate Hb].
  exists b. split; [reflexivity|]. vm_compute in Hb. injection Hb as <-.
  intros h fs c k w io tpl evs Hh.
  destruct h as [|x [|y h]]; simpl in Hh; [| |lia];
    unfold create_new; run_to_write_package; reflexivity.
Qed.

(** [write_package] then [print], by the result of the save. *)
Lemma save_print_run (path msg : string) (p : Presentation) (σ : Process) :
  (write_package path p;; print msg) σ =
  match save_result path (writable σ path) (clock σ (ticks σ))
          (io_fault σ path) with
  | Saved now =>
      (Ret tt,
       {| heap := heap σ;
          files := replace_file path
                     (PackageFile {| stamp := now; document := p |}) (files σ);
          clock := clock σ; ticks := S (ticks σ);
          writable := writable σ; io_fault := io_fault σ;
          template := template σ;
          events := (events σ ++ [Wrote path; Printed msg])%list |})
  | OpenFailed => (Raise (OSError path), σ)
  | Failed ex =>
      (Raise ex,
       {| heap := heap σ; files := replace_file path TruncatedFile (files σ);
          clock := clock σ; ticks := S (ticks σ);
          writable := writable σ; io_fault := io_fault σ;
          template := template σ;
          events := (events σ ++ [LeftTruncated path])%list |})
  end.
Proof.
  destruct σ as [h fs c k w io tpl evs].
  unfold save_result.
  cbn [heap files clock ticks writable io_fault template events].
  destruct (w path) eqn:Hw, (year (c k) <? 1980)%nat eqn:Hearly,
    (2107 <? year (c k))%nat eqn:Hlate, (io path) eqn:Hio;
    unfold write_package, open_archive, read_clock, abandon, get_io_fault,
      store, raise, print, emit;
    repeat (cbv beta iota
              delta [mbind M_bind mret M_ret heap files clock ticks writable
                     io_fault template events];
            rewrite ?Hw, ?Hearly, ?Hlate, ?Hio);
    rewrite <- ?app_assoc; reflexivity.
Qed.

(** The object a constructor builds does not depend on the environment. *)
Lemma old_deck_any (e e' : Env) : old_deck e = old_deck e'.
Proof.
  destruct create_old_run as (a & _ & Ha).
  transitivity (Some a); [|symmetry];
    unfold old_deck, built, start; rewrite Ha by (simpl; lia);
    rewrite save_print_run;
    destruct (save_result _ _ _ _); reflexivity.
Qed.

Lemma new_deck_any (e e' : Env) : new_deck e = new_deck e'.
Proof.
  destruct create_new_run as (b & _ & Hb).
  transitivity (Some b); [|symmetry];
    unfold new_deck, built, start; rewrite Hb by (simpl; lia);
    rewrite save_print_run;
    destruct (save_result _ _ _ _); reflexivity.
Qed.

(** Both constructors always build their object, and it is the one built
    in [env0]. *)
Lemma decks_built (e : Env) :
  ∃ old new,
    (old_deck e = Some old ∧ new_deck e = Some new) ∧
    (old_deck env0 = Some old ∧ new_deck env0 = Some new).
Proof.
  rewrite (old_deck_any e env0), (new_deck_any e env0).
  destruct create_old_run as (a & Ha & _), create_new_run as (b & Hb & _).
  exists a, b. repeat split; assumption.
Qed.

(** A save that goes through is stamped with the reading it took. *)
Lemma save_in_Saved (e : Env) (k : nat) (path : string) (t : DateTime) :
  save_in e k path = Saved t → t = env_clock e k.
Proof.
  unfold save_in, save_result.
  destruct (env_writable e path), (year (env_clock e k) <? 1980)%nat,
    (2107 <? year (env_clock e k))%nat, (env_io_fault e path);
    intros [=]; congruence.
Qed.

(** A save fails at opening exactly when the path cannot be opened. *)
Lemma save_in_OpenFailed (e : Env) (k : nat) (path : string) :
  save_in e k path = OpenFailed ↔ env_writable e path = false.
Proof.
  unfold save_in, save_result.
  destruct (env_writable e path), (year (env_clock e k) <? 1980)%nat,
    (2107 <? year (env_clock e k))%nat, (env_io_fault e path);
    split; intros [=]; reflexivity.
Qed.


(** A constructor on its own, by the result of its save. *)
Lemma create_old_alone (e : Env) :
  ∃ a,
    old_deck e = Some a ∧
    create_old (start e) =
    match save_in e 0 "test_old.pptx" with
    | Saved t0 =>
        (Ret tt,
         ended e [a]
           (replace_file "test_old.pptx"
              (PackageFile {| stamp := t0; document := a |}) (env_files e))
           1
           [ Wrote "test_old.pptx";
             Printed "Created test_old.pptx (4 slides)" ])
    | OpenFailed =>
        (Raise (OSError "test_old.pptx"), ended e [a] (env_files e) 0 [])
    | Failed ex =>
        (Raise ex,
         ended e [a]
           (replace_file "test_old.pptx" TruncatedFile (env_files e))
           1 [LeftTruncated "test_old.pptx"])
    end.
Proof.
  destruct create_old_run as (a & Hoa & Ha).
  exists a. rewrite (old_deck_any e env0). split; [exact Hoa|].
  unfold start, save_in. rewrite Ha by (simpl; lia). rewrite save_print_run.
  cbn [heap files clock ticks writable io_fault template events].
  destruct (save_result _ _ _ _); reflexivity.
Qed.

Lemma create_new_alone (e : Env) :
  ∃ b,
    new_deck e = Some b ∧
    create_new (start e) =
    match save_in e 0 "test_new.pptx" with
    | Saved t0 =>
        (Ret tt,
         ended e [b]
           (replace_file "test_new.pptx"
              (PackageFile {| stamp := t0; document := b |}) (env_files e))
           1
           [ Wrote "test_new.pptx";
             Printed "Created test_new.pptx (4 slides: modified slide 2, changed notes on slide 1, deleted Discussion, added Limitations)" ])
    | OpenFailed =>
        (Raise (OSError "test_new.pptx"), ended e [b] (env_files e) 0 [])
    | Failed ex =>
        (Raise ex,
         ended e [b]
           (replace_file "test_new.pptx" TruncatedFile (env_files e))
           1 [LeftTruncated "test_new.pptx"])
    end.
Proof.
  destruct create_new_run as (b & Hnb & Hb).
  exists b. rewrite (new_deck_any e env0). split; [exact Hnb|].
  unfold start, save_in. rewrite Hb by (simpl; lia). rewrite save_print_run.
  cbn [heap files clock ticks writable io_fault template events].
  destruct (save_result _ _ _ _); reflexivity.
Qed.

(** The five ways a run of [main] can end, by the results of its two
    saves. *)
Lemma main_run (e : Env) :
  ∃ a b,
    (old_deck e = Some a ∧ new_deck e = Some b) ∧
    main (start e) =
    match save_in e 0 "test_old.pptx" with
    | OpenFailed =>
        (Raise (OSError "test_old.pptx"), ended e [a] (env_files e) 0 [])
    | Failed ex =>
        (Raise ex,
         ended e [a]
           (replace_file "test_old.pptx" TruncatedFile (env_files e))
           1 [LeftTruncated "test_old.pptx"])
    | Saved t0 =>
        match save_in e 1 "test_new.pptx" with
        | OpenFailed =>
            (Raise (OSError "test_new.pptx"),
             ended e [a; b]
               (replace_file "test_old.pptx"
                  (PackageFile {| stamp := t0; document := a |})
                  (env_files e))
               1
               [ Wrote "test_old.pptx";
                 Printed "Created test_old.pptx (4 slides)" ])
        | Failed ex =>
            (Raise ex,
             ended e [a; b]
               (replace_file "test_new.pptx" TruncatedFile
                  (replace_file "test_old.pptx"
                     (PackageFile {| stamp := t0; document := a |})
                     (env_files e)))
               2
               [ Wrote "test_old.pptx";
                 Printed "Created test_old.pptx (4 slides)";
                 LeftTruncated "test_new.pptx" ])
        | Saved t1 =>
            (Ret tt,
             ended e [a; b]
               (replace_file "test_new.pptx"
                  (PackageFile {| stamp := t1; document := b |})
                  (replace_file "test_old.pptx"
                     (PackageFile {| stamp := t0; document := a |})
                     (env_files e)))
               2
               [ Wrote "test_old.pptx";
                 Printed "Created test_old.pptx (4 slides)";
                 Wrote "test_new.pptx";
                 Printed "Created test_new.pptx (4 slides: modified slide 2, changed notes on slide 1, deleted Discussion, added Limitations)";
                 Printed (String LF "Done! Now run:");
                 Printed "  dotnet run --project ../PptxReview.csproj -- --diff test_old.pptx test_new.pptx";
                 Printed "  dotnet run --project ../PptxReview.csproj -- --textconv test_new.pptx" ])
        end
    end.
Proof.
  destruct create_old_run as (a & Hoa & Ha), create_new_run as (b & Hnb & Hb).
  exists a, b. rewrite (old_deck_any e env0), (new_deck_any e env0).
  split; [split; assumption|].
  unfold main, start, save_in.
  rewrite bind_run, Ha by (simpl; lia). rewrite save_print_run.
  cbn [heap files clock ticks writable io_fault template events].
  destruct (save_result "test_old.pptx" _ _ _); [|reflexivity..].
  rewrite bind_run, Hb by (simpl; lia). rewrite save_print_run.
  cbn [heap files clock ticks writable io_fault template events].
  destruct (save_result "test_new.pptx" _ _ _); reflexivity.
Qed.

(** Names the two decks of a run and replaces them by their values. *)
Ltac with_decks e :=
  let old := fresh "old" in
  let new := fresh "new" in
  let He := fresh "He" in
  let Hold := fresh "Hold" in
  let Hnew := fresh "Hnew" in
  destruct (decks_built e) as (old & new & He & Hold & Hnew);
  exists old, new; split; [exact He|]; clear He;
  vm_compute in Hold, Hnew;
  injection Hold as <-; injection Hnew as <-.

(** Closed facts about written-out decks, by evaluation. *)
Ltac by_evaluation :=
  vm_compute; first [reflexivity | discriminate | congruence].

(** A property of every slide of a list that is written out. *)
Ltac each_slide :=
  let s := fresh "s" in
  let Hs := fresh "Hs" in
  intros s Hs;
  repeat (apply elem_of_cons in Hs as [->|Hs]);
  [..|apply elem_of_nil in Hs; contradiction].

(** ** The change table, row by row *)

(** C1: both decks have exactly 4 slides; the slide at position 4 of the
    old deck is titled "Discussion" and no slide of the new deck has that
    title; the slide at position 4 of the new deck is titled "Limitations"
    and no slide of the old deck has that title. *)
Theorem discussion_removed_limitations_inserted (e : Env) :
  ∃ old new,
    (old_deck e = Some old ∧ new_deck e = Some new) ∧
    length (slides old) = 4%nat ∧
    length (slides new) = 4%nat ∧
    slide_at old 4 ≫= slide_title = Some "Discussion" ∧
    (∀ s, s ∈ slides new → slide_title s ≠ Some "Discussion") ∧
    slide_at new 4 ≫= slide_title = Some "Limitations" ∧
    (∀ s, s ∈ slides old → slide_title s ≠ Some "Limitations").
Proof.
  with_decks e.
  split; [by_evaluation|]. split; [by_evaluation|].
  split; [by_evaluation|]. split; [each_slide; by_evaluation|].
  split; [by_evaluation|]. each_slide; by_evaluation.
Qed.

(** C2: the Results slide, at position 3 of both decks, has the same
    title, the same sequence of body paragraphs and the same notes in the
    old deck and in the new one. *)
Theorem results_slide_unchanged (e : Env) :
  ∃ old new,
    (old_deck e = Some old ∧ new_deck e = Some new) ∧
    ∃ r_old r_new,
      slide_at old 3 = Some r_old ∧ slide_at new 3 = Some r_new ∧
      slide_title r_old = Some "Results" ∧
      slide_title r_old = slide_title r_new ∧
      slide_body r_old = slide_body r_new ∧
      slide_notes r_old = slide_notes r_new.
Proof.
  with_decks e.
  do 2 eexists. split; [reflexivity|]. split; [reflexivity|].
  repeat split; by_evaluation.
Qed.

(** C3: the Methods slide is at position 2 of both decks.  Its first body
    paragraph is "Participants: 50 healthy adults (25M/25F)" in the old
    deck and "Participants: 75 healthy adults (38M/37F)" in the new one,
    and the second and the third paragraph are edited too: the bodies are
    the two lists below, which differ at every position. *)
Theorem methods_body_edited (e : Env) :
  ∃ old new,
    (old_deck e = Some old ∧ new_deck e = Some new) ∧
    ∃ m_old m_new,
      slide_at old 2 = Some m_old ∧ slide_at new 2 = Some m_new ∧
      slide_title m_old = Some "Methods" ∧
      slide_title m_new = Some "Methods" ∧
      slide_body m_old !! 0%nat =
        Some "Participants: 50 healthy adults (25M/25F)" ∧
      slide_body m_new !! 0%nat =
        Some "Participants: 75 healthy adults (38M/37F)" ∧
      slide_body m_old =
        [ "Participants: 50 healthy adults (25M/25F)";
          "MRI Protocol: 3T Siemens scanner";
          "Analysis: FSL and FreeSurfer pipelines" ] ∧
      slide_body m_new =
        [ "Participants: 75 healthy adults (38M/37F)";
          "MRI Protocol: 3T Siemens Prisma scanner";
          "Analysis: FSL, FreeSurfer, and CONN toolbox" ] ∧
      (∀ i, (i < 3)%nat → slide_body m_old !! i ≠ slide_body m_new !! i).
Proof.
  with_decks e.
  do 2 eexists. split; [reflexivity|]. split; [reflexivity|].
  do 6 (split; [by_evaluation|]).
  intros [|[|[|i]]] Hi; [by_evaluation..|lia].
Qed.

(** C4: the metadata title is "Research Study" in the old deck and
    "Research Study - Revised" in the new one; the author is the same in
    both, so that the new metadata are the old ones with the title
    replaced. *)
Theorem metadata_title_revised (e : Env) :
  ∃ old new,
    (old_deck e = Some old ∧ new_deck e = Some new) ∧
    title (core_properties old) = "Research Study" ∧
    title (core_properties new) = "Research Study - Revised" ∧
    author (core_properties old) = author (core_properties new) ∧
    core_properties new =
      {| title := "Research Study - Revised";
         author := author (core_properties old) |}.
Proof.
  with_decks e. repeat split; by_evaluation.
Qed.

(** C5: slide 1 of the new deck is slide 1 of the old deck with other
    notes: same title text, same subtitle text, same layout and
    placeholders, and a notes text that differs. *)
Theorem title_slide_notes_only (e : Env) :
  ∃ old new,
    (old_deck e = Some old ∧ new_deck e = Some new) ∧
    ∃ t_old t_new,
      slide_at old 1 = Some t_old ∧ slide_at new 1 = Some t_new ∧
      slide_title t_old = slide_title t_new ∧
      slide_body t_old = slide_body t_new ∧
      layout t_old = layout t_new ∧
      placeholders t_old = placeholders t_new ∧
      slide_notes t_old ≠ slide_notes t_new ∧
      t_new = {| layout := layout t_old; placeholders := placeholders t_old;
                 notes := notes t_new |}.
Proof.
  with_decks e.
  do 2 eexists. split; [reflexivity|]. split; [reflexivity|].
  repeat split; by_evaluation.
Qed.

(** C9: on the Methods slide only the body changes: the title is the
    same in both decks, the notes are "Methods slide - explain recruitment
    criteria" in both, and the body paragraphs differ. *)
Theorem methods_change_confined_to_body (e : Env) :
  ∃ old new,
    (old_deck e = Some old ∧ new_deck e = Some new) ∧
    ∃ m_old m_new,
      slide_at old 2 = Some m_old ∧ slide_at new 2 = Some m_new ∧
      slide_title m_old = slide_title m_new ∧
      slide_notes m_old = Some "Methods slide - explain recruitment criteria" ∧
      slide_notes m_new = Some "Methods slide - explain recruitment criteria" ∧
      layout m_old = layout m_new ∧
      slide_body m_old ≠ slide_body m_new.
Proof.
  with_decks e.
  do 2 eexists. split; [reflexivity|]. split; [reflexivity|].
  repeat split; by_evaluation.
Qed.

(** C7: every slide of the old deck and every slide of the new deck has a
    title, and the title is not the empty string. *)
Theorem every_title_nonempty (e : Env) :
  ∃ old new,
    (old_deck e = Some old ∧ new_deck e = Some new) ∧
    ∀ s, s ∈ slides old ∨ s ∈ slides new →
      ∃ t, slide_title s = Some t ∧ t ≠ EmptyString.
Proof.
  with_decks e.
  intros s [Hs|Hs]; revert s Hs; each_slide;
    (eexists; split; [vm_compute; reflexivity | discriminate]).
Qed.

(** C10: every slide of the old deck and every slide of the new deck has
    a notes slide, and its text is not the empty string. *)
Theorem every_slide_has_notes (e : Env) :
  ∃ old new,
    (old_deck e = Some old ∧ new_deck e = Some new) ∧
    ∀ s, s ∈ slides old ∨ s ∈ slides new →
      ∃ n, slide_notes s = Some n ∧ n ≠ EmptyString.
Proof.
  with_decks e.
  intros s [Hs|Hs]; revert s Hs; each_slide;
    (eexists; split; [vm_compute; reflexivity | discriminate]).
Qed.

(** ** Runs of [main] *)

(** A run that completes has made both saves, each under the reading of
    the clock it took. *)
Lemma main_completes (e : Env) :
  (main (start e)).1 = Ret tt →
  ∃ a b,
    (old_deck e = Some a ∧ new_deck e = Some b) ∧
    main (start e) =
    (Ret tt,
     ended e [a; b]
       (replace_file "test_new.pptx"
          (PackageFile {| stamp := env_clock e 1; document := b |})
          (replace_file "test_old.pptx"
             (PackageFile {| stamp := env_clock e 0; document := a |})
             (env_files e)))
       2
       [ Wrote "test_old.pptx";
         Printed "Created test_old.pptx (4 slides)";
         Wrote "test_new.pptx";
         Printed "Created test_new.pptx (4 slides: modified slide 2, changed notes on slide 1, deleted Discussion, added Limitations)";
         Printed (String LF "Done! Now run:");
         Printed "  dotnet run --project ../PptxReview.csproj -- --diff test_old.pptx test_new.pptx";
         Printed "  dotnet run --project ../PptxReview.csproj -- --textconv test_new.pptx" ]).
Proof.
  intros Hret.
  destruct (main_run e) as (a & b & Hdecks & Hmain).
  exists a, b. split; [exact Hdecks|].
  rewrite Hmain in Hret |- *. clear Hmain.
  destruct (save_in e 0 "test_old.pptx") as [t0| |ex0] eqn:Hs0;
    [|discriminate Hret..].
  destruct (save_in e 1 "test_new.pptx") as [t1| |ex1] eqn:Hs1;
    [|discriminate Hret..].
  apply save_in_Saved in Hs0, Hs1. subst t0 t1. reflexivity.
Qed.

(** What is found at the two paths once both have been written. *)
Lemma lookup_written_old (fs : gmap string File) (f g : File) :
  replace_file "test_new.pptx" g (replace_file "test_old.pptx" f fs)
    !! "test_old.pptx" = Some f.
Proof.
  unfold replace_file.
  rewrite lookup_insert_ne by (intros [=]). apply lookup_insert_eq.
Qed.

Lemma lookup_written_new (fs : gmap string File) (f g : File) :
  replace_file "test_new.pptx" g (replace_file "test_old.pptx" f fs)
    !! "test_new.pptx" = Some g.
Proof. unfold replace_file. apply lookup_insert_eq. Qed.

(** C6: the content of the decks does not depend on the run.  In any two
    environments each constructor builds a deck with the same content
    (title, author, and per slide in order: title, body paragraphs,
    notes), and when both runs of [main] complete, the file each run
    leaves at an output path is a package with the same content; the time
    stamp of the package is not compared. *)
Theorem generator_deterministic (e1 e2 : Env) :
  (is_Some (old_deck e1) ∧
   content <$> old_deck e1 = content <$> old_deck e2) ∧
  (is_Some (new_deck e1) ∧
   content <$> new_deck e1 = content <$> new_deck e2) ∧
  ((main (start e1)).1 = Ret tt → (main (start e2)).1 = Ret tt →
   ∀ path, path = "test_old.pptx" ∨ path = "test_new.pptx" →
     ∃ p1 p2,
       files (main (start e1)).2 !! path = Some (PackageFile p1) ∧
       files (main (start e2)).2 !! path = Some (PackageFile p2) ∧
       content (document p1) = content (document p2)).
Proof.
  destruct (decks_built e1) as (a & b & [Ha1 Hb1] & _).
  split; [split; [exists a; exact Ha1 | rewrite (old_deck_any e1 e2); reflexivity]|].
  split; [split; [exists b; exact Hb1 | rewrite (new_deck_any e1 e2); reflexivity]|].
  clear a b Ha1 Hb1.
  intros Hret1 Hret2 path Hpath.
  destruct (main_completes e1 Hret1) as (a1 & b1 & [Ha Hb] & ->).
  destruct (main_completes e2 Hret2) as (a2 & b2 & [Ha' Hb'] & ->).
  clear Hret1 Hret2.
  rewrite (old_deck_any e2 e1), Ha in Ha'.
  rewrite (new_deck_any e2 e1), Hb in Hb'.
  injection Ha' as <-. injection Hb' as <-.
  cbn [snd files ended].
  destruct Hpath as [-> | ->].
  - rewrite !lookup_written_old.
    do 2 eexists. repeat split; reflexivity.
  - rewrite !lookup_written_new.
    do 2 eexists. repeat split; reflexivity.
Qed.

Lemma generator_deterministic_witness :
  (main (start env_first)).1 = Ret tt ∧
  (main (start env_second)).1 = Ret tt ∧
  ∃ p1 p2,
    files (main (start env_first)).2 !! "test_old.pptx" = Some (PackageFile p1) ∧
    files (main (start env_second)).2 !! "test_old.pptx" = Some (PackageFile p2) ∧
    content (document p1) = content (document p2).
Proof.
  assert (H1 : (main (start env_first)).1 = Ret tt)
    by (vm_compute; reflexivity).
  assert (H2 : (main (start env_second)).1 = Ret tt)
    by (vm_compute; reflexivity).
  split; [exact H1|]. split; [exact H2|].
  apply (proj2 (proj2 (generator_deterministic env_first env_second)) H1 H2).
  left; reflexivity.
Defined.

(** The paths replaced and the lines printed in a written-out trace. *)
Ltac read_trace :=
  repeat match goal with
    | |- context [writes ?evs] =>
        let ws := eval vm_compute in (writes evs) in
        change (writes evs) with ws
    | |- context [printed ?evs] =>
        let ls := eval vm_compute in (printed evs) in
        change (printed evs) with ls
    end.

(** How often [path] occurs in a written-out list of paths. *)
Ltac count_writes :=
  unfold times_written; read_trace;
  rewrite ?filter_cons, ?filter_nil;
  repeat case_decide; subst; cbn [length];
  first [lia | reflexivity | discriminate | congruence].

(** Membership in a written-out list of paths. *)
Ltac in_writes :=
  read_trace; rewrite ?elem_of_cons, ?elem_of_nil; tauto.

(** C8, as the code has it: in every run, also one that a failed save
    aborts, no path has its file replaced twice, no path other than the
    two output paths is touched, and a path the run did not touch holds
    what it held before; a run that completes has replaced the file at
    each of the two output paths exactly once, the old one first, and
    each then holds the package of the deck built for it. *)
Theorem each_output_written_once (e : Env) :
  (∀ path, (times_written path (events (main (start e)).2) ≤ 1)%nat) ∧
  (∀ path, path ∈ writes (events (main (start e)).2) →
     path = "test_old.pptx" ∨ path = "test_new.pptx") ∧
  (∀ path, path ∉ writes (events (main (start e)).2) →
     files (main (start e)).2 !! path = env_files e !! path) ∧
  ((main (start e)).1 = Ret tt →
     writes (events (main (start e)).2) =
       ["test_old.pptx"; "test_new.pptx"] ∧
     times_written "test_old.pptx" (events (main (start e)).2) = 1%nat ∧
     times_written "test_new.pptx" (events (main (start e)).2) = 1%nat ∧
     ∃ a b,
       (old_deck e = Some a ∧ new_deck e = Some b) ∧
       files (main (start e)).2 !! "test_old.pptx" =
         Some (PackageFile {| stamp := env_clock e 0; document := a |}) ∧
       files (main (start e)).2 !! "test_new.pptx" =
         Some (PackageFile {| stamp := env_clock e 1; document := b |})).
Proof.
  split; [|split; [|split]].
  - intros path.
    destruct (main_run e) as (a & b & _ & ->).
    destruct (save_in e 0 "test_old.pptx");
      [destruct (save_in e 1 "test_new.pptx")|..];
      cbn [snd events ended]; count_writes.
  - intros path.
    destruct (main_run e) as (a & b & _ & ->).
    destruct (save_in e 0 "test_old.pptx");
      [destruct (save_in e 1 "test_new.pptx")|..];
      cbn [snd events ended]; in_writes.
  - intros path.
    destruct (main_run e) as (a & b & _ & ->).
    destruct (save_in e 0 "test_old.pptx");
      [destruct (save_in e 1 "test_new.pptx")|..];
      cbn [snd events files ended]; read_trace;
      rewrite ?not_elem_of_cons; intros Hpath; unfold replace_file;
      rewrite ?lookup_insert_ne by (intros <-; tauto); reflexivity.
  - intros Hret.
    destruct (main_completes e Hret) as (a & b & Hdecks & ->). clear Hret.
    cbn [snd events files ended].
    split; [reflexivity|]. split; [reflexivity|]. split; [reflexivity|].
    exists a, b. split; [exact Hdecks|].
    split; [apply lookup_written_old | apply lookup_written_new].
Qed.

Lemma each_output_written_once_witness :
  (main (start env_second)).1 = Ret tt ∧
  writes (events (main (start env_second)).2) =
    ["test_old.pptx"; "test_new.pptx"] ∧
  times_written "test_old.pptx" (events (main (start env_second)).2) = 1%nat ∧
  times_written "test_new.pptx" (events (main (start env_second)).2) = 1%nat.
Proof.
  assert (H : (main (start env_second)).1 = Ret tt)
    by (vm_compute; reflexivity).
  split; [exact H|].
  destruct (proj2 (proj2 (proj2 (each_output_written_once env_second))) H)
    as (Hw & Hold & Hnew & _).
  split; [exact Hw|]. split; [exact Hold | exact Hnew].
Defined.

(** C8, as it is worded, fails for a run that a failed save aborts: with
    "test_old.pptx" write-protected neither of the two paths is written
    once. *)
Lemma each_output_written_once_counterexample :
  ¬ (times_written "test_old.pptx"
       (events (main (start env_old_locked)).2) = 1%nat ∧
     times_written "test_new.pptx"
       (events (main (start env_old_locked)).2) = 1%nat).
Proof.
  intros [Hold _]. vm_compute in Hold. discriminate Hold.
Qed.

(** ** More on runs: traces, failures, reruns *)

(** [create_old] returns exactly when its save went through. *)
Lemma create_old_returns (e : Env) :
  (create_old (start e)).1 = Ret tt →
  save_in e 0 "test_old.pptx" = Saved (env_clock e 0).
Proof.
  intros Hret.
  destruct (create_old_alone e) as (a & _ & Hrun).
  rewrite Hrun in Hret. clear Hrun.
  destruct (save_in e 0 "test_old.pptx") as [t0| |ex0] eqn:Hs0;
    [|discriminate Hret..].
  apply save_in_Saved in Hs0. subst t0. reflexivity.
Qed.

(** X1: when a run completes, each output path holds the deck its
    constructor built, whole, stamped with the time its save read from
    the clock; what was at the path before is gone. *)
Theorem saved_files_hold_built_decks (e : Env) :
  (main (start e)).1 = Ret tt →
  ∃ a b,
    old_deck e = Some a ∧ new_deck e = Some b ∧
    files (main (start e)).2 !! "test_old.pptx" =
      Some (PackageFile {| stamp := env_clock e 0; document := a |}) ∧
    files (main (start e)).2 !! "test_new.pptx" =
      Some (PackageFile {| stamp := env_clock e 1; document := b |}).
Proof.
  intros Hret.
  destruct (main_completes e Hret) as (a & b & [Ha Hb] & ->). clear Hret.
  exists a, b. split; [exact Ha|]. split; [exact Hb|].
  cbn [snd files ended].
  split; [apply lookup_written_old | apply lookup_written_new].
Qed.

Lemma saved_files_hold_built_decks_witness :
  stamp <$> (env_files env_second !! "test_old.pptx" ≫= file_package) =
    Some (clock_from 2026 5 0) ∧
  ∃ a b,
    old_deck env_second = Some a ∧ new_deck env_second = Some b ∧
    files (main (start env_second)).2 !! "test_old.pptx" =
      Some (PackageFile {| stamp := clock_from 2026 9 0; document := a |}) ∧
    files (main (start env_second)).2 !! "test_new.pptx" =
      Some (PackageFile {| stamp := clock_from 2026 9 1; document := b |}).
Proof.
  split; [vm_compute; reflexivity|].
  apply (saved_files_hold_built_decks env_second).
  vm_compute; reflexivity.
Defined.



(** X3: when [create_old] has returned and "test_new.pptx" cannot be
    opened for writing, [main] stops with the error of the new path and
    leaves a partial result: the old file holds the old deck of this run,
    the new path holds what it held before, and only the first report
    line has been printed. *)
Theorem partial_result_when_new_unwritable (e : Env) :
  (create_old (start e)).1 = Ret tt →
  env_writable e "test_new.pptx" = false →
  (main (start e)).1 = Raise (OSError "test_new.pptx") ∧
  (∃ a, old_deck e = Some a ∧
        files (main (start e)).2 !! "test_old.pptx" =
          Some (PackageFile {| stamp := env_clock e 0; document := a |})) ∧
  files (main (start e)).2 !! "test_new.pptx" =
    env_files e !! "test_new.pptx" ∧
  printed (events (main (start e)).2) = ["Created test_old.pptx (4 slides)"].
Proof.
  intros Ho%create_old_returns Hn. apply (save_in_OpenFailed e 1) in Hn.
  destruct (main_run e) as (a & b & [Ha _] & ->).
  rewrite Ho, Hn. cbn [fst snd files events ended]. unfold replace_file.
  split; [reflexivity|].
  split; [exists a; split; [exact Ha | apply lookup_insert_eq]|].
  split; [apply lookup_insert_ne; intros [=] | reflexivity].
Qed.

Lemma partial_result_when_new_unwritable_witness :
  (main (start env_new_locked)).1 = Raise (OSError "test_new.pptx") ∧
  (∃ a, old_deck env_new_locked = Some a ∧
        files (main (start env_new_locked)).2 !! "test_old.pptx" =
          Some (PackageFile {| stamp := clock_from 2026 9 0; document := a |})) ∧
  files (main (start env_new_locked)).2 !! "test_new.pptx" =
    env_files env_new_locked !! "test_new.pptx" ∧
  printed (events (main (start env_new_locked)).2) =
    ["Created test_old.pptx (4 slides)"].
Proof.
  apply (partial_result_when_new_unwritable env_new_locked);
    [vm_compute; reflexivity | reflexivity].
Defined.




(** X6: a run that completes prints five lines, in this order: one per
    created file, after the file is written, and then the three closing
    lines, the first of which starts with a line feed. *)
Theorem completed_run_report (e : Env) :
  (main (start e)).1 = Ret tt →
  printed (events (main (start e)).2) =
    [ "Created test_old.pptx (4 slides)";
      "Created test_new.pptx (4 slides: modified slide 2, changed notes on slide 1, deleted Discussion, added Limitations)";
      String LF "Done! Now run:";
      "  dotnet run --project ../PptxReview.csproj -- --diff test_old.pptx test_new.pptx";
      "  dotnet run --project ../PptxReview.csproj -- --textconv test_new.pptx" ].
Proof.
  intros Hret.
  destruct (main_completes e Hret) as (a & b & _ & ->).
  reflexivity.
Qed.

Lemma completed_run_report_witness :
  length (printed (events (main (start env_second)).2)) = 5%nat.
Proof.
  rewrite (completed_run_report env_second); [reflexivity|].
  vm_compute; reflexivity.
Defined.

(** X7: the two constructors share no object.  Once [create_old] has
    returned, [create_new] runs on a second presentation and leaves the
    first as [create_old] built it, whether or not the new file can be
    saved. *)
Theorem constructors_share_no_object (e : Env) :
  (create_old (start e)).1 = Ret tt →
  ∃ a b,
    old_deck e = Some a ∧ new_deck e = Some b ∧
    heap (main (start e)).2 = [a; b].
Proof.
  intros Ho%create_old_returns.
  destruct (main_run e) as (a & b & [Ha Hb] & ->).
  exists a, b. split; [exact Ha|]. split; [exact Hb|].
  rewrite Ho. destruct (save_in e 1 "test_new.pptx"); reflexivity.
Qed.

Lemma constructors_share_no_object_witness :
  ∃ a b,
    old_deck env_new_locked = Some a ∧ new_deck env_new_locked = Some b ∧
    heap (main (start env_new_locked)).2 = [a; b].
Proof.
  apply (constructors_share_no_object env_new_locked).
  vm_compute; reflexivity.
Defined.

(** X8: generating again over the files of a completed run changes
    nothing but time stamps: every path holds the same document after the
    second run as after the first, and when the clock reads the same at
    the two saves the file system is the same. *)
Theorem rerun_changes_only_stamps (e1 e2 : Env) :
  env_files e2 = files (main (start e1)).2 →
  (main (start e1)).1 = Ret tt →
  (main (start e2)).1 = Ret tt →
  (∀ path,
     file_document <$> files (main (start e2)).2 !! path =
     file_document <$> files (main (start e1)).2 !! path) ∧
  (env_clock e2 0 = env_clock e1 0 → env_clock e2 1 = env_clock e1 1 →
   files (main (start e2)).2 = files (main (start e1)).2).
Proof.
  intros Hfs Hret1 Hret2.
  destruct (main_completes e1 Hret1) as (a1 & b1 & [Ha Hb] & Hmain1).
  destruct (main_completes e2 Hret2) as (a2 & b2 & [Ha' Hb'] & Hmain2).
  clear Hret1 Hret2.
  rewrite (old_deck_any e2 e1), Ha in Ha'.
  rewrite (new_deck_any e2 e1), Hb in Hb'.
  injection Ha' as <-. injection Hb' as <-.
  rewrite Hmain1 in Hfs. rewrite Hmain2, Hmain1. clear Hmain1 Hmain2 Ha Hb.
  cbn [snd files ended] in Hfs |- *. rewrite Hfs. clear Hfs.
  unfold replace_file. split.
  - intros path. rewrite !lookup_insert.
    repeat case_decide; reflexivity.
  - intros -> ->. apply map_eq. intros path. rewrite !lookup_insert.
    repeat case_decide; reflexivity.
Qed.

Lemma rerun_changes_only_stamps_witness :
  stamp <$> (files (main (start env_first)).2 !! "test_old.pptx" ≫=
             file_package) = Some (clock_from 2026 5 0) ∧
  stamp <$> (files (main (start env_second)).2 !! "test_old.pptx" ≫=
             file_package) = Some (clock_from 2026 9 0) ∧
  ∀ path,
    file_document <$> files (main (start env_second)).2 !! path =
    file_document <$> files (main (start env_first)).2 !! path.
Proof.
  split; [vm_compute; reflexivity|]. split; [vm_compute; reflexivity|].
  apply (rerun_changes_only_stamps env_first env_second);
    [reflexivity | vm_compute; reflexivity | vm_compute; reflexivity].
Defined.

(** X9: the order of the two constructor calls does not matter for the
    documents: when [main] completes and the two calls in the other
    order complete as well, every path holds the same document after
    either; the time stamps go with the order of the saves. *)
Theorem constructors_commute_on_files (e : Env) :
  (main (start e)).1 = Ret tt →
  ((create_new;; create_old) (start e)).1 = Ret tt →
  ∀ path,
    file_document <$> files ((create_new;; create_old) (start e)).2 !! path =
    file_document <$> files (main (start e)).2 !! path.
Proof.
  intros Hret Hswap.
  destruct (main_completes e Hret) as (a & b & [Ha Hb] & ->). clear Hret.
  rewrite (old_deck_any e env0) in Ha. rewrite (new_deck_any e env0) in Hb.
  destruct create_old_run as (a' & Hoa & Hrun_old).
  destruct create_new_run as (b' & Hnb & Hrun_new).
  rewrite Ha in Hoa. rewrite Hb in Hnb.
  injection Hoa as <-. injection Hnb as <-. clear Ha Hb.
  revert Hswap. unfold start.
  rewrite bind_run, Hrun_new by (simpl; lia). rewrite save_print_run.
  cbn [heap files clock ticks writable io_fault template events].
  destruct (save_result "test_new.pptx" _ _ _) as [t0| |ex0];
    [|intros [=]..].
  rewrite Hrun_old by (simpl; lia). rewrite save_print_run.
  cbn [heap files clock ticks writable io_fault template events].
  destruct (save_result "test_old.pptx" _ _ _) as [t1| |ex1];
    [|intros [=]..].
  intros _ path. cbn [snd files ended]. unfold replace_file.
  rewrite !lookup_insert.
  repeat case_decide; try reflexivity; subst; discriminate.
Qed.

Lemma constructors_commute_on_files_witness :
  file_document <$>
    files ((create_new;; create_old) (start env_second)).2 !! "test_old.pptx" =
  file_document <$> files (main (start env_second)).2 !! "test_old.pptx" ∧
  file_package <$>
    files ((create_new;; create_old) (start env_second)).2 !! "test_old.pptx" ≠
  file_package <$> files (main (start env_second)).2 !! "test_old.pptx".
Proof.
  split.
  - apply (constructors_commute_on_files env_second); vm_compute; reflexivity.
  - vm_compute. intros [=].
Defined.

(** X10: [create_old] called on its own touches one path only.  In every
    run every other file, "test_new.pptx" included, is as before, and the
    file at "test_old.pptx" is replaced at most once.  When the call
    returns, that path holds the old deck under the first reading of the
    clock and the report line has been printed; when the path cannot be
    opened for writing, the call raises the error of that path and
    nothing is written or printed. *)
Theorem create_old_touches_one_path (e : Env) :
  (∀ path, path ≠ "test_old.pptx" →
     files (create_old (start e)).2 !! path = env_files e !! path) ∧
  (∀ path, path ∈ writes (events (create_old (start e)).2) →
     path = "test_old.pptx") ∧
  (times_written "test_old.pptx" (events (create_old (start e)).2) ≤ 1)%nat ∧
  ((create_old (start e)).1 = Ret tt →
   ∃ a, old_deck e = Some a ∧
        files (create_old (start e)).2 !! "test_old.pptx" =
          Some (PackageFile {| stamp := env_clock e 0; document := a |}) ∧
        printed (events (create_old (start e)).2) =
          ["Created test_old.pptx (4 slides)"]) ∧
  (env_writable e "test_old.pptx" = false →
   (create_old (start e)).1 = Raise (OSError "test_old.pptx") ∧
   files (create_old (start e)).2 = env_files e ∧
   events (create_old (start e)).2 = []).
Proof.
  destruct (create_old_alone e) as (a & Ha & ->).
  split; [|split; [|split; [|split]]].
  - intros path Hpath.
    destruct (save_in e 0 "test_old.pptx"); cbn [snd files ended];
      unfold replace_file; rewrite ?lookup_insert_ne by congruence;
      reflexivity.
  - intros path.
    destruct (save_in e 0 "test_old.pptx"); cbn [snd events ended];
      in_writes.
  - destruct (save_in e 0 "test_old.pptx"); cbn [snd events ended];
      count_writes.
  - destruct (save_in e 0 "test_old.pptx") as [t0| |ex0] eqn:Hs0;
      [|intros [=]..].
    apply save_in_Saved in Hs0. subst t0. intros _.
    exists a. split; [exact Ha|]. cbn [snd files events ended].
    split; [apply lookup_insert_eq | reflexivity].
  - intros Ho. apply (save_in_OpenFailed e 0) in Ho. rewrite Ho.
    repeat split; reflexivity.
Qed.

(** X11: [create_new] called on its own touches "test_new.pptx" only, in
    the same way. *)
Theorem create_new_touches_one_path (e : Env) :
  (∀ path, path ≠ "test_new.pptx" →
     files (create_new (start e)).2 !! path = env_files e !! path) ∧
  (∀ path, path ∈ writes (events (create_new (start e)).2) →
     path = "test_new.pptx") ∧
  (times_written "test_new.pptx" (events (create_new (start e)).2) ≤ 1)%nat ∧
  ((create_new (start e)).1 = Ret tt →
   ∃ b, new_deck e = Some b ∧
        files (create_new (start e)).2 !! "test_new.pptx" =
          Some (PackageFile {| stamp := env_clock e 0; document := b |}) ∧
        printed (events (create_new (start e)).2) =
          ["Created test_new.pptx (4 slides: modified slide 2, changed notes on slide 1, deleted Discussion, added Limitations)"]) ∧
  (env_writable e "test_new.pptx" = false →
   (create_new (start e)).1 = Raise (OSError "test_new.pptx") ∧
   files (create_new (start e)).2 = env_files e ∧
   events (create_new (start e)).2 = []).
Proof.
  destruct (create_new_alone e) as (b & Hb & ->).
  split; [|split; [|split; [|split]]].
  - intros path Hpath.
    destruct (save_in e 0 "test_new.pptx"); cbn [snd files ended];
      unfold replace_file; rewrite ?lookup_insert_ne by congruence;
      reflexivity.
  - intros path.
    destruct (save_in e 0 "test_new.pptx"); cbn [snd events ended];
      in_writes.
  - destruct (save_in e 0 "test_new.pptx"); cbn [snd events ended];
      count_writes.
  - destruct (save_in e 0 "test_new.pptx") as [t0| |ex0] eqn:Hs0;
      [|intros [=]..].
    apply save_in_Saved in Hs0. subst t0. intros _.
    exists b. split; [exact Hb|]. cbn [snd files events ended].
    split; [apply lookup_insert_eq | reflexivity].
  - intros Hn. apply (save_in_OpenFailed e 0) in Hn. rewrite Hn.
    repeat split; reflexivity.
Qed.

(** X14: a clock that shows a year before 1980 at the first save makes
    the run end there with a [ValueError], although the path can be
    written: the file at "test_old.pptx" is left truncated, nothing is
    printed, and "test_new.pptx" holds what it held before. *)
Theorem early_clock_spoils_old_file (e : Env) :
  env_writable e "test_old.pptx" = true →
  (year (env_clock e 0) < 1980)%nat →
  (main (start e)).1 = Raise ValueError ∧
  files (main (start e)).2 !! "test_old.pptx" = Some TruncatedFile ∧
  files (main (start e)).2 !! "test_new.pptx" =
    env_files e !! "test_new.pptx" ∧
  events (main (start e)).2 = [LeftTruncated "test_old.pptx"].
Proof.
  intros Ho Hearly%Nat.ltb_lt.
  assert (Hs : save_in e 0 "test_old.pptx" = Failed ValueError)
    by (unfold save_in, save_result; rewrite Ho, Hearly; reflexivity).
  destruct (main_run e) as (a & b & _ & ->). rewrite Hs.
  cbn [fst snd files events ended]. unfold replace_file.
  split; [reflexivity|]. split; [apply lookup_insert_eq|].
  split; [apply lookup_insert_ne; intros [=] | reflexivity].
Qed.

Lemma early_clock_spoils_old_file_witness :
  is_Some (env_files env_early_clock !! "test_old.pptx" ≫= file_package) ∧
  (main (start env_early_clock)).1 = Raise ValueError ∧
  files (main (start env_early_clock)).2 !! "test_old.pptx" =
    Some TruncatedFile ∧
  files (main (start env_early_clock)).2 !! "test_new.pptx" =
    env_files env_early_clock !! "test_new.pptx" ∧
  events (main (start env_early_clock)).2 = [LeftTruncated "test_old.pptx"].
Proof.
  split; [eexists; vm_compute; reflexivity|].
  apply (early_clock_spoils_old_file env_early_clock);
    [reflexivity | vm_compute; lia].
Defined.

(** ** More on the decks *)

(** X12: position by position, the content of a slide (title, body
    paragraphs, notes) is the same in the two decks at position 3 and at
    no other of the four positions. *)
Theorem only_position_3_has_equal_content (e : Env) :
  ∃ old new,
    (old_deck e = Some old ∧ new_deck e = Some new) ∧
    ∀ pos, (1 ≤ pos ≤ 4)%nat →
      slide_content <$> slide_at old pos = slide_content <$> slide_at new pos ↔
      pos = 3%nat.
Proof.
  with_decks e.
  intros pos Hpos.
  destruct pos as [|[|[|[|[|pos]]]]]; try lia; clear Hpos;
    (split; [intros H; vm_compute in H; first [reflexivity | discriminate H]
            | intros H; first [discriminate H | vm_compute; reflexivity]]).
Qed.

(** X13: the shape of the slides.  In both decks slide 1 is made from
    layout 0 of the template and carries one subtitle paragraph, slides 2
    to 4 are made from layout 1 and carry exactly three body paragraphs,
    and every slide has the two placeholders 0 and 1 and no other. *)
Theorem slide_shapes (e : Env) :
  ∃ old new,
    (old_deck e = Some old ∧ new_deck e = Some new) ∧
    ∀ d pos s, d = old ∨ d = new → slide_at d pos = Some s →
      default_layouts !! (if decide (pos = 1%nat) then 0%nat else 1%nat) =
        Some (layout s) ∧
      dom (placeholders s) = ({[0%nat; 1%nat]} : gset nat) ∧
      length (slide_body s) = (if decide (pos = 1%nat) then 1%nat else 3%nat).
Proof.
  with_decks e.
  intros d pos s Hd Hs.
  destruct Hd as [-> | ->];
    (destruct pos as [|[|[|[|[|pos]]]]];
       [discriminate Hs | | | | | destruct pos; discriminate Hs];
     vm_compute in Hs; injection Hs as <-;
     repeat split; vm_compute; reflexivity).
Qed.
